(** * Conversation router (api/routers/conversations.py)

    A shallow embedding of the five FastAPI handlers of the conversation
    router and of the order in which the router registers them.

    The handlers are glue: each logs, possibly compares two user ids, awaits
    one function of the conversation service and maps what comes back to a
    return value or to a raised exception.  The service functions live in
    api/services and are taken here as section variables acting on an
    abstract service world [W]; a handler is a computation in a small
    state-and-exception monad whose state is the service world together with
    the chronological list of observable events (log lines and service
    calls). *)

From Stdlib Require Import ZArith NArith List String Ascii Bool Lia.
From Stdlib Require Import DecimalString.
Import ListNotations.

Set Warnings "-register-all".

Local Open Scope string_scope.
Local Open Scope Z_scope.

(** ** Python values *)

(** What a service function may hand back.  The handlers never inspect the
    value beyond its truth value, so the dynamic type is kept. *)
Inductive pyval : Type :=
| VNone
| VBool (b : bool)
| VInt (n : Z)
| VStr (s : string)
| VList (items : list pyval)
| VDict (entries : list (string * pyval))
| VObj (cls : string) (fields : list (string * pyval)).

(** Python truth value testing, as used by [if not conversation]:
    None, False, 0, the empty string and empty containers are false; an
    instance of a class that defines neither __bool__ nor __len__ (a pydantic
    model) is true. *)
Definition truthy (v : pyval) : bool :=
  match v with
  | VNone => false
  | VBool b => b
  | VInt n => negb (n =? 0)
  | VStr s => negb (String.eqb s "")
  | VList items => match items with [] => false | _ :: _ => true end
  | VDict entries => match entries with [] => false | _ :: _ => true end
  | VObj _ _ => true
  end.

(** [str(n)] for a Python int. *)
Definition str_int (n : Z) : string := NilZero.string_of_int (Z.to_int n).

(** ** uuid.UUID *)

Module UUID.

(** A UUID is its 128-bit integer, as in the uuid module. *)
Record t : Type := mk { int : N }.

Definition hex_digit (d : N) : ascii :=
  match d with
  | 0 => "0" | 1 => "1" | 2 => "2" | 3 => "3" | 4 => "4" | 5 => "5"
  | 6 => "6" | 7 => "7" | 8 => "8" | 9 => "9" | 10 => "a" | 11 => "b"
  | 12 => "c" | 13 => "d" | 14 => "e" | _ => "f"
  end%N%char.

(** ['%0kx' % n], most significant digit first. *)
Fixpoint hex (k : nat) (n : N) (acc : string) : string :=
  match k with
  | O => acc
  | S k' => hex k' (N.div n 16) (String (hex_digit (N.modulo n 16)) acc)
  end.

(** [str(u)]: 32 hex digits grouped 8-4-4-4-12. *)
Definition str (u : t) : string :=
  let h := hex 32 (int u) "" in
  substring 0 8 h ++ "-" ++ substring 8 4 h ++ "-" ++ substring 12 4 h
    ++ "-" ++ substring 16 4 h ++ "-" ++ substring 20 12 h.

Definition digit_value (c : ascii) : option N :=
  let n := N_of_ascii c in
  if ((48 <=? n) && (n <=? 57))%N then Some (n - 48)%N
  else if ((97 <=? n) && (n <=? 102))%N then Some (n - 87)%N
  else if ((65 <=? n) && (n <=? 70))%N then Some (n - 55)%N
  else None.

Fixpoint of_hex (s : string) (acc : N) : option N :=
  match s with
  | EmptyString => Some acc
  | String c s' =>
      match digit_value c with
      | Some d => of_hex s' (16 * acc + d)%N
      | None => None
      end
  end.

Definition is_hyphen_at (i : nat) (s : string) : bool :=
  match String.get i s with
  | Some c => Ascii.eqb c "-"
  | None => false
  end.

(** The 32 digits without separators. *)
Definition parse_simple (s : string) : option t :=
  if Nat.eqb (String.length s) 32 then option_map mk (of_hex s 0%N)
  else None.

(** The form 8-4-4-4-12: 36 characters, a hyphen at positions 8, 13, 18
    and 23, hexadecimal digits of either case elsewhere. *)
Definition parse_hyphenated (s : string) : option t :=
  if Nat.eqb (String.length s) 36
     && is_hyphen_at 8 s && is_hyphen_at 13 s
     && is_hyphen_at 18 s && is_hyphen_at 23 s
  then option_map mk
         (of_hex (substring 0 8 s ++ substring 9 4 s ++ substring 14 4 s
                  ++ substring 19 4 s ++ substring 24 12 s) 0%N)
  else None.

(** Validation of a path parameter annotated [uuid.UUID]: the text is
    accepted as 32 digits, in the hyphenated form, in the hyphenated form
    between braces, or in the hyphenated form after "urn:uuid:"; anything
    else is rejected. *)
Definition parse (s : string) : option t :=
  let n := String.length s in
  if Nat.eqb n 32 then parse_simple s
  else if Nat.eqb n 36 then parse_hyphenated s
  else if Nat.eqb n 38 && String.eqb (substring 0 1 s) "{"
          && String.eqb (substring 37 1 s) "}"
       then parse_hyphenated (substring 1 36 s)
  else if Nat.eqb n 45 && String.eqb (substring 0 9 s) "urn:uuid:"
       then parse_hyphenated (substring 9 36 s)
  else None.

End UUID.

(** ** Request, response and user schemas *)

(** The router imports its schemas from api/schemas, which is not part of
    the router file.  It reads only [session_id] and [user_id] and passes
    the objects on whole. *)

Module UserInDB.
(** Modelled from the spec: api/schemas/user.py is missing; the
    authenticated user is [{user_id, ...}], the remaining fields being
    kept uninterpreted. *)
Record t : Type := mk {
  user_id : Z;
  other_fields : list (string * pyval)
}.
End UserInDB.

Module ConversationCreateRequest.
(** Modelled from the spec: api/schemas/conversation.py is missing; a
    create request is [{session_id: integer, user_id: integer}] plus
    content fields. *)
Record t : Type := mk {
  session_id : Z;
  user_id : Z;
  other_fields : list (string * pyval)
}.
End ConversationCreateRequest.

Module ConversationUpdateRequest.
(** Modelled from the spec: api/schemas/conversation.py is missing; an
    update request is [{session_id: integer, user_id: integer,
    conversation_id: identifier}] plus updatable fields. *)
Record t : Type := mk {
  session_id : Z;
  user_id : Z;
  conversation_id : string;
  other_fields : list (string * pyval)
}.
End ConversationUpdateRequest.

Module ConversationResponse.
(** Modelled from the spec: api/schemas/conversation.py is missing; a
    conversation is [{conversation_id: UUID-formatted string, session_id:
    integer, user_id: integer}] plus content and timestamps. *)
Record t : Type := mk {
  conversation_id : string;
  session_id : Z;
  user_id : Z;
  other_fields : list (string * pyval)
}.

Definition fields (c : t) : list (string * pyval) :=
  ("conversation_id", VStr (conversation_id c))
    :: ("session_id", VInt (session_id c))
    :: ("user_id", VInt (user_id c))
    :: other_fields c.

Definition as_dict (c : t) : pyval := VDict (fields c).


(** Modelled from the spec: api/schemas/conversation.py is missing; the
    field names the spec gives for ConversationResponse, in its order.  The
    content and timestamp fields the spec leaves unspecified are not
    listed. *)
Definition declared_fields : list string :=
  ["conversation_id"; "session_id"; "user_id"].

(** Modelled from the spec: api/schemas/conversation.py is missing;
    validation of one field of ConversationResponse, given what the
    returned value holds under that name: conversation_id is a string,
    session_id and user_id are integers, all three are required. *)
Definition validate_field (name : string) (x : option pyval) : option pyval :=
  match x with
  | Some (VStr s) =>
      if String.eqb name "conversation_id" then Some (VStr s) else None
  | Some (VInt n) =>
      if String.eqb name "session_id" || String.eqb name "user_id"
      then Some (VInt n) else None
  | _ => None
  end.
End ConversationResponse.

(** ** Exceptions *)

(** fastapi.HTTPException(status_code, detail, headers) *)
Record HTTPException : Type := mkHTTPException {
  status_code : Z;
  detail : string;
  headers : option (list (string * string))
}.

(** What a service call or a handler can raise, each with its class name
    and the text [str(e)] yields:
    - [EHTTP]: an HTTPException (which is an Exception);
    - [EOther]: an instance of Exception that is not an HTTPException
      (RuntimeError, KeyError, a database error);
    - [EBase]: an instance of BaseException that is not an Exception
      (asyncio.CancelledError, KeyboardInterrupt, SystemExit). *)
Inductive exn : Type :=
| EHTTP (e : HTTPException)
| EOther (cls : string) (message : string)
| EBase (cls : string) (message : string).

Definition isinstance_HTTPException (e : exn) : bool :=
  match e with EHTTP _ => true | EOther _ _ | EBase _ _ => false end.

(** The class test of [except Exception]. *)
Definition isinstance_Exception (e : exn) : bool :=
  match e with EHTTP _ | EOther _ _ => true | EBase _ _ => false end.

(** [f"{e}"] *)
Definition str_exn (e : exn) : string :=
  match e with
  | EHTTP h => str_int (status_code h) ++ ": " ++ detail h
  | EOther _ message => message
  | EBase _ message => message
  end.

Definition HTTP_403_FORBIDDEN : Z := 403.

(** ** Outcomes, events and the handler monad *)

Inductive result (A : Type) : Type :=
| Return (a : A)
| Raise (e : exn).
Arguments Return {A} a.
Arguments Raise {A} e.

(** The awaited functions of api.services.conversation_service, with the
    arguments the router passes. *)
Inductive service_call : Type :=
| create_conversation_service_call
    (request : ConversationCreateRequest.t) (current_user : UserInDB.t)
| get_session_conversations_service_call (session_id : Z) (user_id : Z)
| get_conversations_service_call (conversation_id : string) (user_id : Z)
| update_conversation_service_call (request : ConversationUpdateRequest.t)
| get_prd_service_call (user_id : Z).

Inductive level : Type := INFO | ERROR.

Inductive event : Type :=
| Logged (lvl : level) (message : string)
| Awaited (call : service_call).

Definition is_service_call (ev : event) : bool :=
  match ev with Awaited _ => true | Logged _ _ => false end.

Definition is_error_log (ev : event) : bool :=
  match ev with Logged ERROR _ => true | _ => false end.

Section Router.

(** The state of everything behind the service layer (database, caches). *)
Variable W : Type.

Record state : Type := mkState {
  world : W;
  events : list event
}.

Definition M (A : Type) : Type := state -> result A * state.

Definition ret {A} (a : A) : M A := fun st => (Return a, st).

Definition raise {A} (e : exn) : M A := fun st => (Raise e, st).

Definition bind {A B} (m : M A) (k : A -> M B) : M B :=
  fun st =>
    match m st with
    | (Return a, st') => k a st'
    | (Raise e, st') => (Raise e, st')
    end.

Definition emit (ev : event) : M unit :=
  fun st => (Return tt, mkState (world st) (events st ++ [ev])).

Definition logger_info (message : string) : M unit :=
  emit (Logged INFO message).

Definition logger_error (message : string) : M unit :=
  emit (Logged ERROR message).

(** One [except C as e: ...] clause. *)
Definition except_clause (A : Type) : Type :=
  ((exn -> bool) * (exn -> M A))%type.

Fixpoint first_matching {A} (clauses : list (except_clause A)) (e : exn)
  : option (exn -> M A) :=
  match clauses with
  | [] => None
  | (matches, handler) :: rest =>
      if matches e then Some handler else first_matching rest e
  end.

(** [try: body / except ...]: the first clause whose class test accepts
    the exception runs, in the state the body left; what that clause
    raises leaves the statement; with no matching clause the exception
    propagates. *)
Definition try_except {A} (body : M A) (clauses : list (except_clause A))
  : M A :=
  fun st =>
    match body st with
    | (Return a, st') => (Return a, st')
    | (Raise e, st') =>
        match first_matching clauses e with
        | Some handler => handler e st'
        | None => (Raise e, st')
        end
    end.

End Router.

Arguments mkState {W} world events.
Arguments world {W} s.
Arguments events {W} s.
Arguments ret {W A} a.
Arguments raise {W A} e.
Arguments bind {W A B} m k.
Arguments emit {W} ev.
Arguments logger_info {W} message.
Arguments logger_error {W} message.
Arguments try_except {W A} body clauses.
Arguments first_matching {W A} clauses e.

Declare Scope handler_scope.
Delimit Scope handler_scope with handler.
Notation "x <- m ;; k" := (bind m (fun x => k))
  (at level 100, m at next level, right associativity) : handler_scope.
Notation "m ;; k" := (bind m (fun _ => k))
  (at level 100, right associativity) : handler_scope.
Local Open Scope handler_scope.

(** ** The conversation service *)

(** The interface of api.services.conversation_service as the router uses
    it: each function transforms the service world and either returns a
    value or raises. *)
Class ConversationService (W : Type) : Type := {
  create_conversation_service :
    ConversationCreateRequest.t -> UserInDB.t -> W -> result pyval * W;
  get_session_conversations_service : Z -> Z -> W -> result pyval * W;
  get_conversations_service : string -> Z -> W -> result pyval * W;
  update_conversation_service :
    ConversationUpdateRequest.t -> W -> result pyval * W;
  get_prd_service : Z -> W -> result pyval * W
}.

Section Handlers.

Context {W : Type} {service : ConversationService W}.

Definition perform (call : service_call) : W -> result pyval * W :=
  match call with
  | create_conversation_service_call request current_user =>
      create_conversation_service request current_user
  | get_session_conversations_service_call session_id user_id =>
      get_session_conversations_service session_id user_id
  | get_conversations_service_call conversation_id user_id =>
      get_conversations_service conversation_id user_id
  | update_conversation_service_call request =>
      update_conversation_service request
  | get_prd_service_call user_id => get_prd_service user_id
  end.

(** [await f(args)]: the call is recorded, then performed on the world. *)
Definition await (call : service_call) : M W pyval :=
  fun st =>
    let (r, w') := perform call (world st) in
    (r, mkState w' (events st ++ [Awaited call])).

Definition forbidden : exn :=
  EHTTP (mkHTTPException HTTP_403_FORBIDDEN
           "User ID does not match the authenticated user's ID" None).

Definition not_found : exn :=
  EHTTP (mkHTTPException 404 "Conversation not found" None).

Definition internal_server_error : exn :=
  EHTTP (mkHTTPException 500 "Internal server error" None).

(** POST "" *)
Definition create_conversation
    (request : ConversationCreateRequest.t) (current_user : UserInDB.t)
  : M W pyval :=
  logger_info ("Creating a conversation for session_id: "
               ++ str_int (ConversationCreateRequest.session_id request)
               ++ " by user_id: "
               ++ str_int (UserInDB.user_id current_user)) ;;
  if negb (UserInDB.user_id current_user
           =? ConversationCreateRequest.user_id request)
  then raise forbidden
  else
    try_except
      (conversation <-
         await (create_conversation_service_call request current_user) ;;
       ret conversation)
      [(isinstance_Exception,
        fun e =>
          logger_error ("Error creating conversation: " ++ str_exn e) ;;
          raise internal_server_error)].

(** GET "/session/{session_id}" *)
Definition get_session_conversations
    (session_id : Z) (current_user : UserInDB.t) : M W pyval :=
  logger_info ("Fetching conversations for session_id: "
               ++ str_int session_id) ;;
  try_except
    (conversations <-
       await (get_session_conversations_service_call
                session_id (UserInDB.user_id current_user)) ;;
     ret conversations)
    [(isinstance_Exception,
      fun e =>
        logger_error ("Error fetching conversations for session "
                      ++ str_int session_id ++ ": " ++ str_exn e) ;;
        raise internal_server_error)].

(** GET "/{conversation_id}": the body of the [try] *)
Definition get_conversation_by_id_try
    (conversation_id : UUID.t) (current_user : UserInDB.t) : M W pyval :=
  conversation <-
    await (get_conversations_service_call
             (UUID.str conversation_id)
             (UserInDB.user_id current_user)) ;;
  if negb (truthy conversation)
  then raise not_found
  else ret conversation.

(** GET "/{conversation_id}": its two [except] clauses, in order *)
Definition get_conversation_by_id_except (conversation_id : UUID.t)
  : list (except_clause W pyval) :=
  [(isinstance_HTTPException, fun e => raise e);
   (isinstance_Exception,
    fun e =>
      logger_error ("Error fetching conversation "
                    ++ UUID.str conversation_id ++ ": " ++ str_exn e) ;;
      raise internal_server_error)].

(** GET "/{conversation_id}" *)
Definition get_conversation_by_id
    (conversation_id : UUID.t) (current_user : UserInDB.t) : M W pyval :=
  logger_info ("Fetching conversation with id: "
               ++ UUID.str conversation_id) ;;
  try_except
    (get_conversation_by_id_try conversation_id current_user)
    (get_conversation_by_id_except conversation_id).

(** PUT "" *)
Definition update_conversation
    (request : ConversationUpdateRequest.t) (current_user : UserInDB.t)
  : M W pyval :=
  logger_info ("Updating conversation for session_id: "
               ++ str_int (ConversationUpdateRequest.session_id request)) ;;
  if negb (UserInDB.user_id current_user
           =? ConversationUpdateRequest.user_id request)
  then raise forbidden
  else
    try_except
      (updated_conversation <-
         await (update_conversation_service_call request) ;;
       ret updated_conversation)
      [(isinstance_Exception,
        fun e =>
          logger_error ("Error updating conversation: " ++ str_exn e) ;;
          raise internal_server_error)].

(** GET "/get_prd" *)
Definition get_latest_prd (user_id : Z) : M W pyval :=
  await (get_prd_service_call user_id).

(** *** The five operations, uniformly *)

(** A call of one of the five handlers with its arguments bound. *)
Inductive operation : Type :=
| Create (request : ConversationCreateRequest.t) (current_user : UserInDB.t)
| ListForSession (session_id : Z) (current_user : UserInDB.t)
| GetById (conversation_id : UUID.t) (current_user : UserInDB.t)
| Update (request : ConversationUpdateRequest.t) (current_user : UserInDB.t)
| LatestPrd (user_id : Z).

Definition handle (op : operation) : M W pyval :=
  match op with
  | Create request current_user => create_conversation request current_user
  | ListForSession session_id current_user =>
      get_session_conversations session_id current_user
  | GetById conversation_id current_user =>
      get_conversation_by_id conversation_id current_user
  | Update request current_user => update_conversation request current_user
  | LatestPrd user_id => get_latest_prd user_id
  end.

(** The service call an operation awaits once it gets that far. *)
Definition service_call_of (op : operation) : service_call :=
  match op with
  | Create request current_user =>
      create_conversation_service_call request current_user
  | ListForSession session_id current_user =>
      get_session_conversations_service_call
        session_id (UserInDB.user_id current_user)
  | GetById conversation_id current_user =>
      get_conversations_service_call
        (UUID.str conversation_id) (UserInDB.user_id current_user)
  | Update request _ => update_conversation_service_call request
  | LatestPrd user_id => get_prd_service_call user_id
  end.

(** The ownership test of create and update; the other operations have
    none. *)
Definition ids_match (op : operation) : bool :=
  match op with
  | Create request current_user =>
      UserInDB.user_id current_user
      =? ConversationCreateRequest.user_id request
  | Update request current_user =>
      UserInDB.user_id current_user
      =? ConversationUpdateRequest.user_id request
  | _ => true
  end.

End Handlers.

(** ** Route registration and dispatch *)

(** The decorators register the handlers on the router in textual order;
    the framework compiles each path template to an anchored pattern in
    which [{name}] stands for one or more characters other than "/", and
    hands a request to the first route, in registration order, whose pattern
    matches the path and whose method is the request's. *)

Inductive http_method : Type := GET | POST | PUT | DELETE | PATCH | HEAD.

Definition http_method_eqb (a b : http_method) : bool :=
  match a, b with
  | GET, GET | POST, POST | PUT, PUT | DELETE, DELETE
  | PATCH, PATCH | HEAD, HEAD => true
  | _, _ => false
  end.

Inductive endpoint : Type :=
| create_conversation_endpoint
| get_session_conversations_endpoint
| get_conversation_by_id_endpoint
| update_conversation_endpoint
| get_latest_prd_endpoint.

Record route : Type := mkRoute {
  route_method : http_method;
  route_path : string;
  route_endpoint : endpoint
}.

Definition prefix : string := "/conversations".

(** [router.routes] once the module is loaded. *)
Definition routes : list route :=
  [ mkRoute POST (prefix ++ "") create_conversation_endpoint;
    mkRoute GET (prefix ++ "/session/{session_id}")
      get_session_conversations_endpoint;
    mkRoute GET (prefix ++ "/{conversation_id}")
      get_conversation_by_id_endpoint;
    mkRoute PUT (prefix ++ "") update_conversation_endpoint;
    mkRoute GET (prefix ++ "/get_prd") get_latest_prd_endpoint ].

Inductive token : Type :=
| Lit (c : ascii)
| Param (name : string).

(** Splits a path template into literal characters and parameters;
    [name] is [Some n] while inside braces, [n] being the part of the
    parameter name read so far.  No template of this router gives a
    parameter a convertor ([{name:path}]), so none is modelled. *)
Fixpoint compile_path_from (template : string) (name : option string)
  : list token :=
  match template with
  | EmptyString => []
  | String c rest =>
      match name with
      | None =>
          if Ascii.eqb c "{" then compile_path_from rest (Some "")
          else Lit c :: compile_path_from rest None
      | Some n =>
          if Ascii.eqb c "}" then Param n :: compile_path_from rest None
          else compile_path_from rest (Some (n ++ String c ""))
      end
  end.

Definition compile_path (template : string) : list token :=
  compile_path_from template None.

(** The longest prefix without "/" and what follows it. *)
Fixpoint span_segment (path : string) : string * string :=
  match path with
  | EmptyString => ("", "")
  | String c rest =>
      if Ascii.eqb c "/" then ("", path)
      else let (seg, tail) := span_segment rest in (String c seg, tail)
  end.

(** Anchored match of a compiled template; the end anchor also accepts one
    final newline, as Python's [$] does.  A parameter takes the whole
    segment, which is what the greedy pattern does when the parameter is
    followed by "/" or by the end of the template, the case of every
    template of this router. *)
Fixpoint match_path (tokens : list token) (path : string)
  : option (list (string * string)) :=
  match tokens with
  | [] =>
      if String.eqb path "" || String.eqb path (String "010" "")
      then Some [] else None
  | Lit c :: tokens' =>
      match path with
      | EmptyString => None
      | String c' path' =>
          if Ascii.eqb c c' then match_path tokens' path' else None
      end
  | Param name :: tokens' =>
      let (seg, tail) := span_segment path in
      if String.eqb seg "" then None
      else option_map (cons (name, seg)) (match_path tokens' tail)
  end.

Inductive route_match : Type :=
| NONE
| PARTIAL
| FULL (path_params : list (string * string)).

Definition matches (r : route) (method : http_method) (path : string)
  : route_match :=
  match match_path (compile_path (route_path r)) path with
  | Some path_params =>
      if http_method_eqb (route_method r) method then FULL path_params
      else PARTIAL
  | None => NONE
  end.

Inductive dispatched : Type :=
| Handled (e : endpoint) (path_params : list (string * string))
| MethodNotAllowed
| Unrouted.

(** The routes are tried in order; the first full match handles the
    request; a path matched only under another method answers 405. *)
Fixpoint dispatch_from (rs : list route) (partial : bool)
    (method : http_method) (path : string) : dispatched :=
  match rs with
  | [] => if partial then MethodNotAllowed else Unrouted
  | r :: rs' =>
      match matches r method path with
      | FULL path_params => Handled (route_endpoint r) path_params
      | PARTIAL => dispatch_from rs' true method path
      | NONE => dispatch_from rs' partial method path
      end
  end.

Definition dispatch (method : http_method) (path : string) : dispatched :=
  dispatch_from routes false method path.

(** Binding of the path parameter of [get_conversation_by_id]: the segment
    must validate as a UUID, otherwise the request is rejected (422) before
    the handler body runs. *)
Definition bind_conversation_id (path_params : list (string * string))
  : option UUID.t :=
  match path_params with
  | [(name, value)] =>
      if String.eqb name "conversation_id" then UUID.parse value else None
  | _ => None
  end.


(** ** The response model *)

(** create, get-by-id and update are registered with
    [response_model=ConversationResponse]: the client does not receive the
    handler's return value as it is, but the fields the model declares,
    read from that value and validated. *)

(** [d.get(name)] on the items of a mapping, or [getattr] on the
    attributes of an object. *)
Fixpoint lookup (name : string) (items : list (string * pyval))
  : option pyval :=
  match items with
  | [] => None
  | (key, x) :: rest =>
      if String.eqb key name then Some x else lookup name rest
  end.

(** The items of a mapping or the attributes of an object; other values
    offer the model nothing to read. *)
Definition data_of (v : pyval) : option (list (string * pyval)) :=
  match v with
  | VDict entries => Some entries
  | VObj _ fields => Some fields
  | _ => None
  end.

Section ResponseModel.

(** The schema of the response model, which api/schemas/conversation.py
    holds: its field names in declaration order, and the validation of a
    field given what the returned value holds under its name ([None] when
    it holds nothing), with result [None] when the field is invalid, or
    missing and required. *)
Variable declared : list string.
Variable validate : string -> option pyval -> option pyval.

Fixpoint dump_fields (names : list string) (data : list (string * pyval))
  : option (list (string * pyval)) :=
  match names with
  | [] => Some []
  | name :: names' =>
      match validate name (lookup name data) with
      | Some y => option_map (cons (name, y)) (dump_fields names' data)
      | None => None
      end
  end.

(** The body sent for the return value [v]: the declared fields, in order;
    [None] when [v] does not validate, in which case the client gets a
    server error instead. *)
Definition response_body (v : pyval) : option pyval :=
  match data_of v with
  | Some data => option_map VDict (dump_fields declared data)
  | None => None
  end.

(** The model body for a handler outcome; a raised exception has none. *)
Definition response_of (out : result pyval) : option pyval :=
  match out with
  | Return v => response_body v
  | Raise _ => None
  end.

(** [body] is what the model shows of [v]: exactly the declared fields,
    each the validated field of [v], and nothing under any other name. *)
Definition model_view (v body : pyval) : Prop :=
  exists data items,
    data_of v = Some data
    /\ body = VDict items
    /\ map fst items = declared
    /\ (forall name y,
          In (name, y) items -> validate name (lookup name data) = Some y)
    /\ (forall name, ~ In name declared -> lookup name items = None).

End ResponseModel.

(** ** A scripted service and sample data *)

(** A service over a call counter: every function counts the call and
    yields [r]. *)
Definition scripted (r : result pyval) : ConversationService nat := {|
  create_conversation_service := fun _ _ w => (r, S w);
  get_session_conversations_service := fun _ _ w => (r, S w);
  get_conversations_service := fun _ _ w => (r, S w);
  update_conversation_service := fun _ w => (r, S w);
  get_prd_service := fun _ w => (r, S w)
|}.

Definition fresh : state nat := mkState 0%nat [].

Definition user7 : UserInDB.t := UserInDB.mk 7 [("username", VStr "ana")].
Definition user7' : UserInDB.t :=
  UserInDB.mk 7 [("username", VStr "ana"); ("is_admin", VBool true)].
Definition user9 : UserInDB.t := UserInDB.mk 9 [("username", VStr "bo")].

Definition create42 : ConversationCreateRequest.t :=
  ConversationCreateRequest.mk 42 7 [("content", VStr "hello")].

Definition update42 : ConversationUpdateRequest.t :=
  ConversationUpdateRequest.mk 42 7 "uuid-1" [("content", VStr "bye")].

Definition conversation1 : ConversationResponse.t :=
  ConversationResponse.mk "uuid-1" 42 7 [].

Definition uuid_x : UUID.t := UUID.mk 0x12345678123456781234567812345678%N.

(** A conversation as the service may return it, with a field the response
    model does not declare. *)
Definition conversation1_annotated : pyval :=
  VDict (ConversationResponse.fields conversation1
         ++ [("internal_note", VStr "flagged")]).

(** The policy "an unclassified service error becomes the generic 500",
    for one operation: whatever the service call raises that is not an
    HTTPException, the handler raises the 500. *)
Definition wraps_unclassified (op : operation) : Prop :=
  forall (W : Type) (service : ConversationService W) (st : state W)
         (e : exn) (w' : W),
    ids_match op = true ->
    isinstance_HTTPException e = false ->
    perform (service_call_of op) (world st) = (Raise e, w') ->
    fst (handle op st) = Raise internal_server_error.

(** The policy "the response body is the value the service returned", for
    one operation and one schema of the response model. *)
Definition body_is_service_value
    (declared : list string)
    (validate : string -> option pyval -> option pyval)
    (op : operation) : Prop :=
  forall (W : Type) (service : ConversationService W) (st : state W)
         (v : pyval) (w' : W),
    ids_match op = true ->
    perform (service_call_of op) (world st) = (Return v, w') ->
    response_of declared validate (fst (handle op st)) = Some v.

(** What holds instead between the outcome [out] of a handler and the value
    [v] its service call returned: the handler returns [v] itself; the body
    is the response model's view of [v], declared fields only; and the body
    is [v] when [v] is a mapping of exactly the declared fields, each of
    them valid as it stands. *)
Definition returns_through_model
    (declared : list string)
    (validate : string -> option pyval -> option pyval)
    (out : result pyval) (v : pyval) : Prop :=
  out = Return v
  /\ response_of declared validate out = response_body declared validate v
  /\ (forall body,
        response_of declared validate out = Some body ->
        model_view declared validate v body)
  /\ (forall items,
        v = VDict items ->
        map fst items = declared ->
        NoDup declared ->
        (forall name x, In (name, x) items -> validate name (Some x) = Some x) ->
        response_of declared validate out = Some v).

(** ** Expected event traces *)

(** What get-latest-PRD adds to the events: the service call alone. *)
Definition prd_events {W} (user_id : Z) (st : state W) : list event :=
  events st ++ [Awaited (get_prd_service_call user_id)].

(** What get-by-id adds to the events when no [except Exception] clause
    runs: the entry log line and the service call. *)
Definition get_by_id_events {W} (conversation_id : UUID.t)
    (current_user : UserInDB.t) (st : state W) : list event :=
  events st
  ++ [Logged INFO ("Fetching conversation with id: "
                   ++ UUID.str conversation_id);
      Awaited (get_conversations_service_call
                 (UUID.str conversation_id)
                 (UserInDB.user_id current_user))].

(** ** The five handlers side by side *)

(** The handlers with one catch-all [except Exception] clause. *)
Definition catches_all (op : operation) : bool :=
  match op with
  | Create _ _ | ListForSession _ _ | Update _ _ => true
  | GetById _ _ | LatestPrd _ => false
  end.

(** The handlers whose service call sits in a [try]. *)
Definition has_try (op : operation) : bool :=
  match op with
  | LatestPrd _ => false
  | _ => true
  end.

(** The [logger.info] line a handler starts with; get-latest-PRD has
    none. *)
Definition info_events (op : operation) : list event :=
  match op with
  | Create request current_user =>
      [Logged INFO
         ("Creating a conversation for session_id: "
          ++ str_int (ConversationCreateRequest.session_id request)
          ++ " by user_id: " ++ str_int (UserInDB.user_id current_user))]
  | ListForSession session_id _ =>
      [Logged INFO
         ("Fetching conversations for session_id: " ++ str_int session_id)]
  | GetById conversation_id _ =>
      [Logged INFO
         ("Fetching conversation with id: " ++ UUID.str conversation_id)]
  | Update request _ =>
      [Logged INFO
         ("Updating conversation for session_id: "
          ++ str_int (ConversationUpdateRequest.session_id request))]
  | LatestPrd _ => []
  end.

(** The [logger.error] line of a handler for exception [e]. *)
Definition error_line (op : operation) (e : exn) : string :=
  match op with
  | Create _ _ => "Error creating conversation: " ++ str_exn e
  | ListForSession session_id _ =>
      "Error fetching conversations for session "
      ++ str_int session_id ++ ": " ++ str_exn e
  | GetById conversation_id _ =>
      "Error fetching conversation "
      ++ UUID.str conversation_id ++ ": " ++ str_exn e
  | Update _ _ => "Error updating conversation: " ++ str_exn e
  | LatestPrd _ => ""
  end.

(** Whether the handler replaces exception [e] of its service call by the
    generic 500. *)
Definition replaced_by_500 (op : operation) (e : exn) : bool :=
  match op with
  | LatestPrd _ => false
  | GetById _ _ =>
      negb (isinstance_HTTPException e) && isinstance_Exception e
  | _ => isinstance_Exception e
  end.

Definition error_events (op : operation) (r : result pyval) : list event :=
  match r with
  | Return _ => []
  | Raise e =>
      if replaced_by_500 op e
      then [Logged ERROR (error_line op e)]
      else []
  end.

(** What the handler makes of the outcome of its service call. *)
Definition outcome_of (op : operation) (r : result pyval) : result pyval :=
  match r with
  | Return v =>
      match op with
      | GetById _ _ => if truthy v then Return v else Raise not_found
      | _ => Return v
      end
  | Raise e => if replaced_by_500 op e then Raise internal_server_error
               else Raise e
  end.

(** No "/" occurs in [s]. *)
Fixpoint slash_free (s : string) : bool :=
  match s with
  | EmptyString => true
  | String c s' => negb (Ascii.eqb c "/") && slash_free s'
  end.

(** The method an endpoint is registered under. *)
Definition registered_method (e : endpoint) : http_method :=
  match e with
  | create_conversation_endpoint => POST
  | update_conversation_endpoint => PUT
  | _ => GET
  end.

(** * Properties *)

Ltac run_handler :=
  cbv [create_conversation get_session_conversations get_conversation_by_id
       get_conversation_by_id_try get_conversation_by_id_except
       update_conversation get_latest_prd handle
       bind try_except first_matching await logger_info logger_error emit
       ret raise isinstance_Exception isinstance_HTTPException];
  cbn [world events fst snd perform service_call_of].

Section Properties.

Context {W : Type} {service : ConversationService W}.

Lemma create_conversation_mismatch request current_user (st : state W) :
  UserInDB.user_id current_user
    <> ConversationCreateRequest.user_id request ->
  create_conversation request current_user st
  = (Raise forbidden,
     mkState (world st)
       (events st ++
        [Logged INFO
           ("Creating a conversation for session_id: "
            ++ str_int (ConversationCreateRequest.session_id request)
            ++ " by user_id: "
            ++ str_int (UserInDB.user_id current_user))])).
Proof.
  intros Hneq. apply Z.eqb_neq in Hneq.
  unfold create_conversation, bind, logger_info, emit.
  rewrite Hneq. reflexivity.
Qed.

Lemma update_conversation_mismatch request current_user (st : state W) :
  UserInDB.user_id current_user
    <> ConversationUpdateRequest.user_id request ->
  update_conversation request current_user st
  = (Raise forbidden,
     mkState (world st)
       (events st ++
        [Logged INFO
           ("Updating conversation for session_id: "
            ++ str_int (ConversationUpdateRequest.session_id request))])).
Proof.
  intros Hneq. apply Z.eqb_neq in Hneq.
  unfold update_conversation, bind, logger_info, emit.
  rewrite Hneq. reflexivity.
Qed.

Lemma filter_app_log (evs : list event) lvl message :
  filter is_service_call (evs ++ [Logged lvl message])
  = filter is_service_call evs.
Proof. rewrite filter_app. simpl. apply app_nil_r. Qed.

(** C1. In create and in update, when the request's user_id differs from
    the authenticated user's, the handler raises HTTPException 403 "User
    ID does not match the authenticated user's ID"; the service world is
    left as it was and no service call is added to the events: the
    service is not invoked. *)
Theorem mismatch_forbidden_service_not_invoked :
  (forall request current_user (st : state W),
      ConversationCreateRequest.user_id request
        <> UserInDB.user_id current_user ->
      let out := create_conversation request current_user st in
      fst out = Raise (EHTTP (mkHTTPException 403
                  "User ID does not match the authenticated user's ID" None))
      /\ world (snd out) = world st
      /\ filter is_service_call (events (snd out))
         = filter is_service_call (events st))
  /\
  (forall request current_user (st : state W),
      ConversationUpdateRequest.user_id request
        <> UserInDB.user_id current_user ->
      let out := update_conversation request current_user st in
      fst out = Raise (EHTTP (mkHTTPException 403
                  "User ID does not match the authenticated user's ID" None))
      /\ world (snd out) = world st
      /\ filter is_service_call (events (snd out))
         = filter is_service_call (events st)).
Proof.
  split; intros request current_user st Hneq out; subst out.
  - rewrite create_conversation_mismatch by congruence.
    simpl. rewrite filter_app_log. auto.
  - rewrite update_conversation_mismatch by congruence.
    simpl. rewrite filter_app_log. auto.
Qed.

Lemma get_latest_prd_run (user_id : Z) (st : state W) r w' :
  get_prd_service user_id (world st) = (r, w') ->
  get_latest_prd user_id st = (r, mkState w' (prd_events user_id st)).
Proof.
  intros Hsvc. unfold get_latest_prd, await, prd_events. cbn [perform].
  rewrite Hsvc. reflexivity.
Qed.

(** C2. For every integer user_id the get-latest-PRD handler is the
    awaited call [get_prd_service(user_id)] and nothing else: it returns
    what the service returns and raises what the service raises, leaves
    the world as the service left it, logs nothing, and takes no
    authenticated user to compare the id with. *)
Theorem get_latest_prd_delegates (user_id : Z) (st : state W) :
  get_latest_prd user_id st
  = (fst (get_prd_service user_id (world st)),
     mkState (snd (get_prd_service user_id (world st)))
             (prd_events user_id st)).
Proof.
  apply get_latest_prd_run.
  destruct (get_prd_service user_id (world st)); reflexivity.
Qed.

Lemma create_conversation_match request current_user (st : state W) :
  ConversationCreateRequest.user_id request
    = UserInDB.user_id current_user ->
  forall r w',
    create_conversation_service request current_user (world st) = (r, w') ->
    fst (create_conversation request current_user st)
    = match r with
      | Return v => Return v
      | Raise e =>
          if isinstance_Exception e then Raise internal_server_error
          else Raise e
      end
    /\ world (snd (create_conversation request current_user st)) = w'.
Proof.
  intros Heq r w' Hsvc. symmetry in Heq. apply Z.eqb_eq in Heq.
  run_handler. rewrite Heq. cbn [negb world]. rewrite Hsvc.
  destruct r as [v | [h | cls message | cls message]]; auto.
Qed.

Lemma update_conversation_match request current_user (st : state W) :
  ConversationUpdateRequest.user_id request
    = UserInDB.user_id current_user ->
  forall r w',
    update_conversation_service request (world st) = (r, w') ->
    fst (update_conversation request current_user st)
    = match r with
      | Return v => Return v
      | Raise e =>
          if isinstance_Exception e then Raise internal_server_error
          else Raise e
      end
    /\ world (snd (update_conversation request current_user st)) = w'.
Proof.
  intros Heq r w' Hsvc. symmetry in Heq. apply Z.eqb_eq in Heq.
  run_handler. rewrite Heq. cbn [negb world]. rewrite Hsvc.
  destruct r as [v | [h | cls message | cls message]]; auto.
Qed.

Lemma dump_fields_view validate names data items :
  dump_fields validate names data = Some items ->
  map fst items = names
  /\ forall name y,
      In (name, y) items -> validate name (lookup name data) = Some y.
Proof.
  revert items. induction names as [| name names IH]; cbn; intros items.
  - intros [= <-]. split; [reflexivity | intros ? ? []].
  - destruct (validate name (lookup name data)) as [y |] eqn:Hy;
      [| discriminate].
    destruct (dump_fields validate names data) as [items' |];
      [| discriminate].
    intros [= <-]. destruct (IH _ eq_refl) as [Hnames Hitems].
    split; [cbn; congruence |].
    intros name' y' [[= <- <-] | Hin]; [exact Hy | exact (Hitems _ _ Hin)].
Qed.

Lemma lookup_not_in name (items : list (string * pyval)) :
  ~ In name (map fst items) -> lookup name items = None.
Proof.
  induction items as [| [key x] items IH]; cbn; [reflexivity |].
  intros Hnot. destruct (String.eqb_spec key name) as [-> |].
  - exfalso. apply Hnot. left. reflexivity.
  - apply IH. intros Hin. apply Hnot. right. exact Hin.
Qed.

Lemma lookup_in_nodup name x (items : list (string * pyval)) :
  NoDup (map fst items) -> In (name, x) items -> lookup name items = Some x.
Proof.
  induction items as [| [key y] items IH]; cbn; [intros _ [] |].
  intros Hnodup Hin. inversion Hnodup as [| ? ? Hfresh Hrest]; subst.
  destruct Hin as [[= -> ->] | Hin].
  - rewrite String.eqb_refl. reflexivity.
  - destruct (String.eqb_spec key name) as [-> |]; [| exact (IH Hrest Hin)].
    exfalso. apply Hfresh.
    change name with (fst (name, x)). apply in_map. exact Hin.
Qed.

Lemma dump_fields_exact validate (data sub : list (string * pyval)) :
  NoDup (map fst data) ->
  incl sub data ->
  (forall name x, In (name, x) sub -> validate name (Some x) = Some x) ->
  dump_fields validate (map fst sub) data = Some sub.
Proof.
  intros Hnodup. induction sub as [| [name x] sub IH]; cbn; intros Hincl Hvalid.
  - reflexivity.
  - rewrite (lookup_in_nodup name x data Hnodup)
      by (apply Hincl; left; reflexivity).
    rewrite (Hvalid name x) by (left; reflexivity).
    rewrite IH.
    + reflexivity.
    + intros kv Hkv. apply Hincl. right. exact Hkv.
    + intros name' x' Hin. apply Hvalid. right. exact Hin.
Qed.

Lemma response_body_view declared validate v body :
  response_body declared validate v = Some body ->
  model_view declared validate v body.
Proof.
  unfold response_body, model_view.
  destruct (data_of v) as [data |]; [| discriminate].
  destruct (dump_fields validate declared data) as [items |] eqn:Hdump;
    [| discriminate].
  intros [= <-]. destruct (dump_fields_view _ _ _ _ Hdump) as [Hnames Hitems].
  exists data, items. repeat split; try assumption.
  intros name Hnot. apply lookup_not_in. rewrite Hnames. exact Hnot.
Qed.

Lemma response_body_exact declared validate items :
  map fst items = declared ->
  NoDup declared ->
  (forall name x, In (name, x) items -> validate name (Some x) = Some x) ->
  response_body declared validate (VDict items) = Some (VDict items).
Proof.
  intros Hnames Hnodup Hvalid. unfold response_body. cbn [data_of].
  rewrite <- Hnames in *.
  rewrite (dump_fields_exact validate items items Hnodup (incl_refl _) Hvalid).
  reflexivity.
Qed.

Lemma return_goes_through_model declared validate v :
  returns_through_model declared validate (Return v) v.
Proof.
  unfold returns_through_model. cbn [response_of].
  split; [reflexivity |]. split; [reflexivity |]. split.
  - intros body. apply response_body_view.
  - intros items -> Hnames Hnodup Hvalid.
    apply response_body_exact; assumption.
Qed.

(** C3, amended. In create and in update, when the request's user_id
    equals the authenticated user's and the service call returns a value,
    the handler returns exactly that value; the response body is that value
    seen through [response_model=ConversationResponse]: it holds the
    declared fields only, each the validated field of the service's value,
    so that it is the service's value when that value is a mapping of
    exactly the declared fields, each valid as it stands, while a key the
    model does not declare is not in the body.  The schema of the model is
    a parameter. *)
Theorem matching_ids_return_service_value
        (declared : list string)
        (validate : string -> option pyval -> option pyval) :
  (forall request current_user (st : state W) v w',
      ConversationCreateRequest.user_id request
        = UserInDB.user_id current_user ->
      create_conversation_service request current_user (world st)
        = (Return v, w') ->
      returns_through_model declared validate
        (fst (create_conversation request current_user st)) v)
  /\
  (forall request current_user (st : state W) v w',
      ConversationUpdateRequest.user_id request
        = UserInDB.user_id current_user ->
      update_conversation_service request (world st) = (Return v, w') ->
      returns_through_model declared validate
        (fst (update_conversation request current_user st)) v).
Proof.
  split; intros request current_user st v w' Heq Hsvc.
  - rewrite (proj1 (create_conversation_match _ _ _ Heq _ _ Hsvc)).
    apply return_goes_through_model.
  - rewrite (proj1 (update_conversation_match _ _ _ Heq _ _ Hsvc)).
    apply return_goes_through_model.
Qed.

Lemma get_conversation_by_id_run conversation_id current_user
      (st : state W) r w' :
  get_conversations_service (UUID.str conversation_id)
    (UserInDB.user_id current_user) (world st) = (r, w') ->
  get_conversation_by_id conversation_id current_user st
  = match r with
    | Return v =>
        (if truthy v then Return v else Raise not_found,
         mkState w' (get_by_id_events conversation_id current_user st))
    | Raise (EHTTP h) =>
        (Raise (EHTTP h),
         mkState w' (get_by_id_events conversation_id current_user st))
    | Raise (EOther cls message) =>
        (Raise internal_server_error,
         mkState w'
           (get_by_id_events conversation_id current_user st
            ++ [Logged ERROR ("Error fetching conversation "
                              ++ UUID.str conversation_id ++ ": "
                              ++ message)]))
    | Raise (EBase cls message) =>
        (Raise (EBase cls message),
         mkState w' (get_by_id_events conversation_id current_user st))
    end.
Proof.
  intros Hsvc. unfold get_by_id_events.
  run_handler. rewrite Hsvc. rewrite <- app_assoc. cbn [app].
  destruct r as [v | [h | cls message | cls message]]; cbn.
  - destruct (truthy v); reflexivity.
  - reflexivity.
  - reflexivity.
  - reflexivity.
Qed.


(** C5. In get-by-id and in get-latest-PRD, when the service raises an
    HTTPException the handler raises that same exception: status code,
    detail and headers are the service's, not the generic 500. *)
Theorem classified_error_passes_through :
  (forall conversation_id current_user (st : state W) h w',
      get_conversations_service (UUID.str conversation_id)
        (UserInDB.user_id current_user) (world st) = (Raise (EHTTP h), w') ->
      fst (get_conversation_by_id conversation_id current_user st)
      = Raise (EHTTP h))
  /\
  (forall user_id (st : state W) h w',
      get_prd_service user_id (world st) = (Raise (EHTTP h), w') ->
      fst (get_latest_prd user_id st) = Raise (EHTTP h)).
Proof.
  split.
  - intros conversation_id current_user st h w' Hsvc.
    rewrite (get_conversation_by_id_run _ _ _ _ _ Hsvc). reflexivity.
  - intros user_id st h w' Hsvc.
    rewrite (get_latest_prd_run _ _ _ _ Hsvc). reflexivity.
Qed.

Lemma get_session_conversations_run session_id current_user
      (st : state W) r w' :
  get_session_conversations_service session_id
    (UserInDB.user_id current_user) (world st) = (r, w') ->
  fst (get_session_conversations session_id current_user st)
  = match r with
    | Return v => Return v
    | Raise e =>
        if isinstance_Exception e then Raise internal_server_error
        else Raise e
    end.
Proof.
  intros Hsvc. run_handler. rewrite Hsvc.
  destruct r as [v | [h | cls message | cls message]]; reflexivity.
Qed.

(** C6, amended. In create, list-for-session, get-by-id and update, when
    the service call raises an instance of Exception that is not an
    HTTPException, the handler raises HTTPException 500 "Internal server
    error": one fixed value, the same for every such exception, in which
    nothing of the original exception occurs. *)
Theorem unclassified_error_outcome (op : operation) (st : state W)
        (e : exn) (w' : W) :
  has_try op = true ->
  ids_match op = true ->
  isinstance_Exception e = true ->
  isinstance_HTTPException e = false ->
  perform (service_call_of op) (world st) = (Raise e, w') ->
  fst (handle op st)
  = Raise (EHTTP (mkHTTPException 500 "Internal server error" None)).
Proof.
  intros Htry Hids Hexc Hhttp Hsvc.
  destruct e as [h | cls message | cls message];
    [discriminate Hhttp | | discriminate Hexc].
  destruct op as [request current_user | session_id current_user
                 | conversation_id current_user | request current_user
                 | user_id];
    cbn [handle service_call_of perform ids_match] in *.
  - apply Z.eqb_eq in Hids.
    apply (create_conversation_match _ _ _ (eq_sym Hids) _ _ Hsvc).
  - rewrite (get_session_conversations_run _ _ _ _ _ Hsvc). reflexivity.
  - rewrite (get_conversation_by_id_run _ _ _ _ _ Hsvc). reflexivity.
  - apply Z.eqb_eq in Hids.
    apply (update_conversation_match _ _ _ (eq_sym Hids) _ _ Hsvc).
  - discriminate Htry.
Qed.

(** C8. The absence test of get-by-id is a truth-value test: whatever
    falsy value the service returns, the handler raises HTTPException 404
    "Conversation not found"; None, the empty dict, the empty list, 0 and
    the empty string are all such values. *)
Theorem get_by_id_falsy_is_not_found :
  Forall (fun v => truthy v = false)
         [VNone; VDict []; VList []; VInt 0; VStr ""]
  /\
  (forall conversation_id current_user (st : state W) v w',
      truthy v = false ->
      get_conversations_service (UUID.str conversation_id)
        (UserInDB.user_id current_user) (world st) = (Return v, w') ->
      fst (get_conversation_by_id conversation_id current_user st)
      = Raise (EHTTP (mkHTTPException 404 "Conversation not found" None))).
Proof.
  split.
  - repeat constructor.
  - intros conversation_id current_user st v w' Hfalsy Hsvc.
    rewrite (get_conversation_by_id_run _ _ _ _ _ Hsvc).
    cbn [fst]. rewrite Hfalsy. reflexivity.
Qed.

Lemma update_conversation_calls request current_user (st : state W) :
  ConversationUpdateRequest.user_id request
    = UserInDB.user_id current_user ->
  filter is_service_call
    (events (snd (update_conversation request current_user st)))
  = (filter is_service_call (events st)
     ++ [Awaited (update_conversation_service_call request)])%list.
Proof.
  intros Heq. symmetry in Heq. apply Z.eqb_eq in Heq.
  run_handler. rewrite Heq. cbn [negb world].
  destruct (update_conversation_service request (world st))
    as [[v | [h | cls message | cls message]] w'];
    cbn [events snd]; repeat rewrite filter_app;
    cbn [filter is_service_call]; repeat rewrite app_nil_r; reflexivity.
Qed.

(** C9. When the ids match, the one service call of update is
    [update_conversation_service(request)], which carries nothing of the
    authenticated user; and two authenticated users with the same
    user_id, whatever their other fields, get the same outcome from
    update on the same request and state: same result, same world, same
    events. *)
Theorem update_depends_only_on_request :
  (forall request current_user (st : state W),
      ConversationUpdateRequest.user_id request
        = UserInDB.user_id current_user ->
      filter is_service_call
        (events (snd (update_conversation request current_user st)))
      = (filter is_service_call (events st)
         ++ [Awaited (update_conversation_service_call request)])%list)
  /\
  (forall request user1 user2 (st : state W),
      UserInDB.user_id user1 = UserInDB.user_id user2 ->
      update_conversation request user1 st
      = update_conversation request user2 st).
Proof.
  split.
  - exact update_conversation_calls.
  - intros request user1 user2 st Hsame.
    unfold update_conversation. rewrite Hsame. reflexivity.
Qed.

(** C10. In get-by-id, when the service returns None, the 404 is raised
    by the body of the [try]; the first [except] clause accepting it is
    the HTTPException one, which raises it again; so the handler's outcome
    is the 404, not the generic 500, and the [except Exception] clause,
    which would log an error, has not run. *)
Theorem get_by_id_not_found_survives_try :
  forall conversation_id current_user (st : state W) w',
    get_conversations_service (UUID.str conversation_id)
      (UserInDB.user_id current_user) (world st) = (Return VNone, w') ->
    fst (get_conversation_by_id_try conversation_id current_user st)
      = Raise not_found
    /\ (exists clause,
          first_matching
            (get_conversation_by_id_except (W := W) conversation_id)
            not_found = Some clause
          /\ forall st', clause not_found st' = (Raise not_found, st'))
    /\ (exists h,
          fst (get_conversation_by_id conversation_id current_user st)
            = Raise (EHTTP h)
          /\ status_code h = 404)
    /\ fst (get_conversation_by_id conversation_id current_user st)
         <> Raise internal_server_error
    /\ filter is_error_log
         (events (snd (get_conversation_by_id conversation_id
                         current_user st)))
       = filter is_error_log (events st).
Proof.
  intros conversation_id current_user st w' Hsvc.
  rewrite (get_conversation_by_id_run _ _ _ _ _ Hsvc).
  cbn [truthy fst snd events].
  repeat split.
  - unfold get_conversation_by_id_try, bind, await. cbn [perform].
    rewrite Hsvc. reflexivity.
  - eexists. split; [reflexivity | reflexivity].
  - eexists. split; reflexivity.
  - discriminate.
  - unfold get_by_id_events. rewrite filter_app. cbn. apply app_nil_r.
Qed.

End Properties.

(** ** Routing *)

Lemma match_path_literal (s path : string) path_params :
  match_path (map Lit (list_ascii_of_string s)) path = Some path_params ->
  path = s \/ path = s ++ String "010" "".
Proof.
  revert path. induction s as [| c s IH]; intros path; cbn.
  - destruct (String.eqb_spec path ""); [auto |].
    destruct (String.eqb_spec path (String "010" "")); [auto | discriminate].
  - destruct path as [| c' path']; [discriminate |].
    destruct (Ascii.eqb_spec c c'); [| discriminate].
    intros H. subst c'. destruct (IH _ H) as [-> | ->]; auto.
Qed.

Lemma get_prd_match_is_covered method path path_params :
  matches (mkRoute GET (prefix ++ "/get_prd") get_latest_prd_endpoint)
          method path = FULL path_params ->
  exists path_params',
    matches (mkRoute GET (prefix ++ "/{conversation_id}")
               get_conversation_by_id_endpoint)
            method path = FULL path_params'.
Proof.
  unfold matches. cbn [route_path route_method].
  destruct (match_path (compile_path (prefix ++ "/get_prd")) path)
    as [ps |] eqn:Hlit; [| discriminate].
  destruct (http_method_eqb GET method); [| discriminate].
  intros _.
  change (compile_path (prefix ++ "/get_prd"))
    with (map Lit (list_ascii_of_string "/conversations/get_prd")) in Hlit.
  destruct (match_path_literal _ _ _ Hlit) as [-> | ->];
    eexists; vm_compute; reflexivity.
Qed.

(** C7. A GET of /conversations/get_prd is handed to get-by-id, whose
    route "/{conversation_id}" is registered before "/get_prd" and matches
    the path with conversation_id = "get_prd"; that segment is not a UUID,
    so the request is rejected before any handler body runs; and no request
    at all, whatever its method and path, is handed to get-latest-PRD. *)
Theorem get_prd_route_is_shadowed :
  dispatch GET "/conversations/get_prd"
  = Handled get_conversation_by_id_endpoint [("conversation_id", "get_prd")]
  /\ bind_conversation_id [("conversation_id", "get_prd")] = None
  /\ forall method path path_params,
      dispatch method path <> Handled get_latest_prd_endpoint path_params.
Proof.
  split; [reflexivity |]. split; [reflexivity |].
  intros method path path_params. unfold dispatch, routes.
  cbn [dispatch_from route_endpoint].
  destruct (matches (mkRoute POST (prefix ++ "") create_conversation_endpoint)
              method path);
    destruct (matches (mkRoute GET (prefix ++ "/session/{session_id}")
                         get_session_conversations_endpoint) method path);
    destruct (matches (mkRoute GET (prefix ++ "/{conversation_id}")
                         get_conversation_by_id_endpoint) method path)
      eqn:Hby_id;
    destruct (matches (mkRoute PUT (prefix ++ "") update_conversation_endpoint)
                method path);
    destruct (matches (mkRoute GET (prefix ++ "/get_prd")
                         get_latest_prd_endpoint) method path) eqn:Hprd;
    try discriminate;
    destruct (get_prd_match_is_covered _ _ _ Hprd) as [ps' Hcov];
    congruence.
Qed.

(** ** Where the policies as stated stop *)

(** C6, as stated, fails already in create: when the service call is
    cancelled it raises asyncio.CancelledError, which is not an
    HTTPException and not an Exception either; [except Exception] does not
    catch it, and the handler raises it instead of the generic 500. *)
Lemma cancelled_create_is_not_wrapped :
  ~ wraps_unclassified (Create create42 user7).
Proof.
  intros Hwrap.
  specialize (Hwrap nat
                (scripted (Raise (EBase "CancelledError" "")))
                fresh (EBase "CancelledError" "") 1%nat
                eq_refl eq_refl eq_refl).
  discriminate Hwrap.
Qed.

(** C3, as stated, fails in create: when the service returns the
    conversation with one more key, "internal_note", the body holds the
    three fields of the response model and not that key, so it is not the
    value the service returned. *)
Lemma undeclared_field_is_not_in_body :
  ~ body_is_service_value
      ConversationResponse.declared_fields ConversationResponse.validate_field
      (Create create42 user7).
Proof.
  intros Hbody.
  specialize (Hbody nat (scripted (Return conversation1_annotated))
                fresh conversation1_annotated 1%nat eq_refl eq_refl).
  vm_compute in Hbody. discriminate Hbody.
Qed.

(** ** Scenarios *)

(** POST /conversations with session 42 and user 7, authenticated as user 7:
    the service's conversation comes back as it is, after one log line and
    one service call. *)
Example create_scenario_ok :
  create_conversation
    (service := scripted (Return (ConversationResponse.as_dict conversation1)))
    create42 user7 fresh
  = (Return (VDict [("conversation_id", VStr "uuid-1");
                    ("session_id", VInt 42); ("user_id", VInt 7)]),
     mkState 1%nat
       [Logged INFO "Creating a conversation for session_id: 42 by user_id: 7";
        Awaited (create_conversation_service_call create42 user7)]).
Proof. reflexivity. Qed.

(** The same request authenticated as user 9: 403, the call counter of the
    service still at 0. *)
Example create_scenario_forbidden :
  create_conversation
    (service := scripted (Return (ConversationResponse.as_dict conversation1)))
    create42 user9 fresh
  = (Raise forbidden,
     mkState 0%nat
       [Logged INFO "Creating a conversation for session_id: 42 by user_id: 9"]).
Proof. reflexivity. Qed.

(** GET /conversations/{uuid} where the service raises KeyError: the text
    of the exception goes to the error log, the caller gets the generic
    500. *)
Example get_by_id_scenario_unclassified :
  get_conversation_by_id
    (service := scripted (Raise (EOther "KeyError" "'rows'")))
    uuid_x user7 fresh
  = (Raise internal_server_error,
     mkState 1%nat
       [Logged INFO
          "Fetching conversation with id: 12345678-1234-5678-1234-567812345678";
        Awaited (get_conversations_service_call
                   "12345678-1234-5678-1234-567812345678" 7);
        Logged ERROR
          "Error fetching conversation 12345678-1234-5678-1234-567812345678: 'rows'"]).
Proof. reflexivity. Qed.

(** An HTTPException raised by the service of create is caught by
    [except Exception] like any other and becomes the generic 500. *)
Example create_scenario_classified_is_wrapped :
  fst (create_conversation
         (service := scripted
                       (Raise (EHTTP (mkHTTPException 409 "Duplicate" None))))
         create42 user7 fresh)
  = Raise internal_server_error.
Proof. reflexivity. Qed.

(** The handler of get-latest-PRD, called directly for user 5 with no
    session: the service's 404 comes out. *)
Example get_prd_scenario_not_found :
  get_latest_prd
    (service := scripted
                  (Raise (EHTTP (mkHTTPException 404 "PRD not found" None))))
    5 fresh
  = (Raise (EHTTP (mkHTTPException 404 "PRD not found" None)),
     mkState 1%nat [Awaited (get_prd_service_call 5)]).
Proof. reflexivity. Qed.

(** The body of the first scenario: the service's mapping has exactly the
    fields of the response model, and the body is that mapping. *)
Example create_scenario_body :
  response_of
    ConversationResponse.declared_fields ConversationResponse.validate_field
    (fst (create_conversation
            (service := scripted
                          (Return (ConversationResponse.as_dict conversation1)))
            create42 user7 fresh))
  = Some (VDict [("conversation_id", VStr "uuid-1");
                 ("session_id", VInt 42); ("user_id", VInt 7)]).
Proof. reflexivity. Qed.

(** With the key "internal_note" added by the service, the body is the
    same three fields. *)
Example create_scenario_body_filtered :
  response_of
    ConversationResponse.declared_fields ConversationResponse.validate_field
    (fst (create_conversation
            (service := scripted (Return conversation1_annotated))
            create42 user7 fresh))
  = Some (VDict [("conversation_id", VStr "uuid-1");
                 ("session_id", VInt 42); ("user_id", VInt 7)]).
Proof. reflexivity. Qed.

(** The handler of get-latest-PRD, called for user 5 while the service
    raises RuntimeError: the RuntimeError comes out of the handler, although
    its docstring announces HTTPException 404 and 500 only. *)
Example get_prd_scenario_unclassified :
  fst (get_latest_prd
         (service := scripted (Raise (EOther "RuntimeError" "db-1 refused")))
         5 fresh)
  = Raise (EOther "RuntimeError" "db-1 refused").
Proof. reflexivity. Qed.

(** A cancelled service call in update: nothing is logged as an error and
    the cancellation leaves the handler. *)
Example update_scenario_cancelled :
  update_conversation
    (service := scripted (Raise (EBase "CancelledError" "")))
    update42 user7 fresh
  = (Raise (EBase "CancelledError" ""),
     mkState 1%nat
       [Logged INFO "Updating conversation for session_id: 42";
        Awaited (update_conversation_service_call update42)]).
Proof. reflexivity. Qed.

(** Routing of the registered paths. *)
Example dispatch_scenarios :
  dispatch POST "/conversations" = Handled create_conversation_endpoint []
  /\ dispatch PUT "/conversations" = Handled update_conversation_endpoint []
  /\ dispatch GET "/conversations/session/12"
     = Handled get_session_conversations_endpoint [("session_id", "12")]
  /\ dispatch GET "/conversations/12345678-1234-5678-1234-567812345678"
     = Handled get_conversation_by_id_endpoint
         [("conversation_id", "12345678-1234-5678-1234-567812345678")]
  /\ dispatch DELETE "/conversations" = MethodNotAllowed
  /\ dispatch GET "/conversations/session/12/x" = Unrouted.
Proof. repeat split. Qed.

(** ** The properties at concrete requests *)

Lemma mismatch_forbidden_service_not_invoked_witness :
  (ConversationCreateRequest.user_id create42 <> UserInDB.user_id user9
   /\ fst (create_conversation (service := scripted (Return VNone))
             create42 user9 fresh)
      = Raise (EHTTP (mkHTTPException 403
                 "User ID does not match the authenticated user's ID" None)))
  /\
  (ConversationUpdateRequest.user_id update42 <> UserInDB.user_id user9
   /\ fst (update_conversation (service := scripted (Return VNone))
             update42 user9 fresh)
      = Raise (EHTTP (mkHTTPException 403
                 "User ID does not match the authenticated user's ID" None))).
Proof.
  split; (split; [vm_compute; discriminate |]).
  - apply (proj1 (mismatch_forbidden_service_not_invoked
                    (service := scripted (Return VNone)))
             create42 user9 fresh).
    vm_compute; discriminate.
  - apply (proj2 (mismatch_forbidden_service_not_invoked
                    (service := scripted (Return VNone)))
             update42 user9 fresh).
    vm_compute; discriminate.
Defined.

Lemma matching_ids_return_service_value_witness :
  let v := ConversationResponse.as_dict conversation1 in
  let declared := ConversationResponse.declared_fields in
  let validate := ConversationResponse.validate_field in
  (ConversationCreateRequest.user_id create42 = UserInDB.user_id user7
   /\ create_conversation_service (ConversationService := scripted (Return v))
        create42 user7 (world fresh) = (Return v, 1%nat)
   /\ returns_through_model declared validate
        (fst (create_conversation (service := scripted (Return v))
                create42 user7 fresh)) v)
  /\
  (ConversationUpdateRequest.user_id update42 = UserInDB.user_id user7
   /\ update_conversation_service (ConversationService := scripted (Return v))
        update42 (world fresh) = (Return v, 1%nat)
   /\ returns_through_model declared validate
        (fst (update_conversation (service := scripted (Return v))
                update42 user7 fresh)) v).
Proof.
  intros v declared validate.
  split; (split; [reflexivity |]); (split; [reflexivity |]).
  - apply (proj1 (matching_ids_return_service_value
                    (service := scripted (Return v)) declared validate)
             create42 user7 fresh v 1%nat); reflexivity.
  - apply (proj2 (matching_ids_return_service_value
                    (service := scripted (Return v)) declared validate)
             update42 user7 fresh v 1%nat); reflexivity.
Defined.


Lemma classified_error_passes_through_witness :
  let h := mkHTTPException 404 "PRD not found" None in
  (get_conversations_service (ConversationService := scripted (Raise (EHTTP h)))
     (UUID.str uuid_x) (UserInDB.user_id user7) (world fresh)
   = (Raise (EHTTP h), 1%nat)
   /\ fst (get_conversation_by_id (service := scripted (Raise (EHTTP h)))
             uuid_x user7 fresh) = Raise (EHTTP h))
  /\
  (get_prd_service (ConversationService := scripted (Raise (EHTTP h)))
     5 (world fresh) = (Raise (EHTTP h), 1%nat)
   /\ fst (get_latest_prd (service := scripted (Raise (EHTTP h))) 5 fresh)
      = Raise (EHTTP h)).
Proof.
  intros h. split; (split; [reflexivity |]).
  - apply (proj1 (classified_error_passes_through
                    (service := scripted (Raise (EHTTP h))))
             uuid_x user7 fresh h 1%nat); reflexivity.
  - apply (proj2 (classified_error_passes_through
                    (service := scripted (Raise (EHTTP h))))
             5 fresh h 1%nat); reflexivity.
Defined.

Lemma unclassified_error_outcome_witness :
  let e := EOther "RuntimeError" "db-1 refused" in
  has_try (Create create42 user7) = true
  /\ ids_match (Create create42 user7) = true
  /\ isinstance_Exception e = true
  /\ isinstance_HTTPException e = false
  /\ perform (service := scripted (Raise e))
       (service_call_of (Create create42 user7)) (world fresh)
     = (Raise e, 1%nat)
  /\ fst (handle (service := scripted (Raise e))
            (Create create42 user7) fresh)
     = Raise (EHTTP (mkHTTPException 500 "Internal server error" None)).
Proof.
  intros e. do 5 (split; [reflexivity |]).
  apply (unclassified_error_outcome (service := scripted (Raise e))
           (Create create42 user7) fresh e 1%nat);
    reflexivity.
Defined.

Lemma get_by_id_falsy_is_not_found_witness :
  truthy (VDict []) = false
  /\ get_conversations_service
       (ConversationService := scripted (Return (VDict [])))
       (UUID.str uuid_x) (UserInDB.user_id user7) (world fresh)
     = (Return (VDict []), 1%nat)
  /\ fst (get_conversation_by_id (service := scripted (Return (VDict [])))
            uuid_x user7 fresh)
     = Raise (EHTTP (mkHTTPException 404 "Conversation not found" None)).
Proof.
  split; [reflexivity |]. split; [reflexivity |].
  apply (proj2 (get_by_id_falsy_is_not_found
                  (service := scripted (Return (VDict []))))
           uuid_x user7 fresh (VDict []) 1%nat); reflexivity.
Defined.

Lemma update_depends_only_on_request_witness :
  let v := ConversationResponse.as_dict conversation1 in
  UserInDB.user_id user7 = UserInDB.user_id user7'
  /\ user7 <> user7'
  /\ update_conversation (service := scripted (Return v))
       update42 user7 fresh
     = update_conversation (service := scripted (Return v))
         update42 user7' fresh
  /\ ConversationUpdateRequest.user_id update42 = UserInDB.user_id user7
  /\ filter is_service_call
       (events (snd (update_conversation (service := scripted (Return v))
                       update42 user7 fresh)))
     = [Awaited (update_conversation_service_call update42)].
Proof.
  intros v. split; [reflexivity |]. split; [discriminate |]. split.
  - apply (proj2 (update_depends_only_on_request
                    (service := scripted (Return v)))
             update42 user7 user7' fresh); reflexivity.
  - split; [reflexivity |].
    apply (proj1 (update_depends_only_on_request
                    (service := scripted (Return v)))
             update42 user7 fresh); reflexivity.
Defined.

Lemma get_by_id_not_found_survives_try_witness :
  get_conversations_service (ConversationService := scripted (Return VNone))
    (UUID.str uuid_x) (UserInDB.user_id user7) (world fresh)
  = (Return VNone, 1%nat)
  /\ fst (get_conversation_by_id (service := scripted (Return VNone))
            uuid_x user7 fresh)
     <> Raise internal_server_error.
Proof.
  split; [reflexivity |].
  apply (get_by_id_not_found_survives_try
           (service := scripted (Return VNone)) uuid_x user7 fresh 1%nat).
  reflexivity.
Defined.

(** * Further properties of the handlers *)

Section HandlerScheme.

Context {W : Type} {service : ConversationService W}.

(** All five handlers follow one scheme: the info line, the ownership test
    where there is one, one service call, and the mapping of its outcome. *)
Lemma handle_run (op : operation) (st : state W) :
  handle op st
  = if ids_match op
    then (outcome_of op (fst (perform (service_call_of op) (world st))),
          mkState (snd (perform (service_call_of op) (world st)))
            (events st ++ info_events op
             ++ [Awaited (service_call_of op)]
             ++ error_events op
                  (fst (perform (service_call_of op) (world st)))))
    else (Raise forbidden, mkState (world st) (events st ++ info_events op)).
Proof.
  destruct op as [request current_user | session_id current_user
                 | conversation_id current_user | request current_user
                 | user_id];
    cbn [ids_match service_call_of perform info_events handle].
  - run_handler.
    destruct (UserInDB.user_id current_user
              =? ConversationCreateRequest.user_id request);
      cbn [negb world]; [| reflexivity].
    destruct (create_conversation_service request current_user (world st))
      as [[v | [h | cls message | cls message]] w'];
      cbn; rewrite <- ?List.app_assoc; reflexivity.
  - run_handler.
    destruct (get_session_conversations_service session_id
                (UserInDB.user_id current_user) (world st))
      as [[v | [h | cls message | cls message]] w'];
      cbn; rewrite <- ?List.app_assoc; reflexivity.
  - run_handler.
    destruct (get_conversations_service (UUID.str conversation_id)
                (UserInDB.user_id current_user) (world st))
      as [[v | [h | cls message | cls message]] w'];
      cbn; rewrite <- ?List.app_assoc; cbn;
      [destruct (truthy v) | | |]; reflexivity.
  - run_handler.
    destruct (UserInDB.user_id current_user
              =? ConversationUpdateRequest.user_id request);
      cbn [negb world]; [| reflexivity].
    destruct (update_conversation_service request (world st))
      as [[v | [h | cls message | cls message]] w'];
      cbn; rewrite <- ?List.app_assoc; reflexivity.
  - run_handler.
    destruct (get_prd_service user_id (world st)) as [[v | e] w'];
      reflexivity.
Qed.

Lemma no_service_call_in_info (op : operation) :
  filter is_service_call (info_events op) = [].
Proof. destruct op; reflexivity. Qed.

Lemma no_service_call_in_errors (op : operation) (r : result pyval) :
  filter is_service_call (error_events op r) = [].
Proof.
  destruct r as [v | e]; [reflexivity |].
  unfold error_events. destruct (replaced_by_500 op e); reflexivity.
Qed.

Lemma no_error_in_info (op : operation) :
  filter is_error_log (info_events op) = [].
Proof. destruct op; reflexivity. Qed.

Lemma errors_are_errors (op : operation) (r : result pyval) :
  filter is_error_log (error_events op r) = error_events op r.
Proof.
  destruct r as [v | e]; [reflexivity |].
  unfold error_events. destruct (replaced_by_500 op e); reflexivity.
Qed.

(** X1. List-for-session hands back whatever the service returned, be it
    None or an empty list (there is no 404 here), after its info line and
    one call of the service with the session id and the caller's user_id;
    the world is the one the service left. *)
Theorem get_session_conversations_returns_verbatim
        session_id current_user (st : state W) v w' :
  get_session_conversations_service session_id
    (UserInDB.user_id current_user) (world st) = (Return v, w') ->
  get_session_conversations session_id current_user st
  = (Return v,
     mkState w'
       (events st
        ++ [Logged INFO ("Fetching conversations for session_id: "
                         ++ str_int session_id);
            Awaited (get_session_conversations_service_call
                       session_id (UserInDB.user_id current_user))])).
Proof.
  intros Hsvc.
  change (get_session_conversations session_id current_user st)
    with (handle (ListForSession session_id current_user) st).
  rewrite handle_run.
  cbn [ids_match service_call_of perform info_events].
  rewrite Hsvc. cbn [fst snd outcome_of error_events].
  rewrite app_nil_r. reflexivity.
Qed.

(** X2. Create, list-for-session and update do not let an HTTPException of
    the service through: whatever its status and detail, the handler raises
    the generic 500, and the status and detail appear only in the error
    line it logs. *)
Theorem catch_all_wraps_classified (op : operation) (st : state W) h w' :
  catches_all op = true ->
  ids_match op = true ->
  perform (service_call_of op) (world st) = (Raise (EHTTP h), w') ->
  fst (handle op st)
  = Raise (EHTTP (mkHTTPException 500 "Internal server error" None))
  /\ In (Logged ERROR (error_line op (EHTTP h))) (events (snd (handle op st))).
Proof.
  intros Hall Hids Hsvc. rewrite handle_run, Hids, Hsvc.
  cbn [fst snd outcome_of error_events events].
  assert (Hrep : replaced_by_500 op (EHTTP h) = true)
    by (destruct op; try discriminate Hall; reflexivity).
  rewrite Hrep. split; [reflexivity |].
  rewrite !in_app_iff. right. right. right. left. reflexivity.
Qed.

(** X3. The four handlers with a [try] let no instance of Exception other
    than an HTTPException out.  What they raise is the 403 of a failed
    ownership test, the generic 500, in get-by-id also its own 404 or the
    HTTPException the service raised, or else an exception of the service
    call that is not an Exception at all (a cancellation, a keyboard
    interrupt), which no [except] clause catches. *)
Theorem raised_exception_is_classified (op : operation) (st : state W) e :
  has_try op = true ->
  fst (handle op st) = Raise e ->
  (isinstance_HTTPException e = true
   /\ ((e = forbidden /\ ids_match op = false)
       \/ e = internal_server_error
       \/ (catches_all op = false
           /\ (e = not_found
               \/ fst (perform (service_call_of op) (world st)) = Raise e))))
  \/ (isinstance_Exception e = false
      /\ ids_match op = true
      /\ fst (perform (service_call_of op) (world st)) = Raise e).
Proof.
  intros Htry. rewrite handle_run.
  destruct (ids_match op) eqn:Hids; cbn [fst].
  - destruct (fst (perform (service_call_of op) (world st))) as [v | e'];
      cbn [outcome_of].
    + destruct op; try discriminate Htry; try discriminate.
      destruct (truthy v); [discriminate |].
      intros [= <-]. left. split; [reflexivity |]. right. right. auto.
    + destruct (replaced_by_500 op e') eqn:Hrep.
      * intros [= <-]. left. split; [reflexivity |]. right. left. reflexivity.
      * intros [= <-].
        destruct e' as [h | cls message | cls message].
        -- left. split; [reflexivity |]. right. right.
           destruct op; try discriminate Htry; try discriminate Hrep. auto.
        -- destruct op; try discriminate Htry; discriminate Hrep.
        -- right. auto.
  - intros [= <-]. left. split; [reflexivity |]. left. auto.
Qed.

(** X4. A handler calls the service exactly once when its ownership test
    passes (always, where there is none) and not at all otherwise, whether
    the call returns or raises: nothing is retried; and the service world
    after the request is the one that single call left. *)
Theorem one_service_call_per_request (op : operation) (st : state W) :
  filter is_service_call (events (snd (handle op st)))
  = (filter is_service_call (events st)
     ++ if ids_match op then [Awaited (service_call_of op)] else [])%list
  /\ world (snd (handle op st))
     = if ids_match op
       then snd (perform (service_call_of op) (world st))
       else world st.
Proof.
  rewrite handle_run. destruct (ids_match op); cbn [snd events world].
  - split; [| reflexivity].
    rewrite !filter_app, no_service_call_in_info, no_service_call_in_errors.
    reflexivity.
  - split; [| reflexivity].
    rewrite filter_app, no_service_call_in_info. reflexivity.
Qed.

(** X5. A handler logs an error exactly when it replaces an exception of
    its service call by the generic 500, and then one line, which carries
    [str(e)]: nothing on success, on a failed ownership test, for an
    HTTPException passing through get-by-id, for an exception that is not
    an Exception (a cancellation), which passes through every handler, or
    in get-latest-PRD. *)
Theorem error_logged_iff_replaced (op : operation) (st : state W) :
  filter is_error_log (events (snd (handle op st)))
  = (filter is_error_log (events st)
     ++ if ids_match op
        then match fst (perform (service_call_of op) (world st)) with
             | Return _ => []
             | Raise e =>
                 if replaced_by_500 op e
                 then [Logged ERROR (error_line op e)]
                 else []
             end
        else [])%list.
Proof.
  rewrite handle_run. destruct (ids_match op); cbn [snd events].
  - rewrite !filter_app, no_error_in_info, errors_are_errors.
    reflexivity.
  - rewrite filter_app, no_error_in_info. reflexivity.
Qed.

(** X6. Get-by-id does not look at the shape of what the service returns:
    every truthy value, conversation or not, is returned as it is, with no
    error logged. *)
Theorem get_by_id_truthy_is_returned
        conversation_id current_user (st : state W) v w' :
  truthy v = true ->
  get_conversations_service (UUID.str conversation_id)
    (UserInDB.user_id current_user) (world st) = (Return v, w') ->
  get_conversation_by_id conversation_id current_user st
  = (Return v, mkState w' (get_by_id_events conversation_id current_user st)).
Proof.
  intros Htruthy Hsvc.
  rewrite (get_conversation_by_id_run _ _ _ _ _ Hsvc), Htruthy.
  reflexivity.
Qed.

(** X8. A request refused by the ownership test is invisible to the
    requests after it: the next handler returns or raises the same, and
    leaves the same service world, as if the refused request had not been
    made. *)
Theorem refused_request_changes_nothing
        (op1 op2 : operation) (st : state W) :
  ids_match op1 = false ->
  fst (handle op2 (snd (handle op1 st))) = fst (handle op2 st)
  /\ world (snd (handle op2 (snd (handle op1 st))))
     = world (snd (handle op2 st)).
Proof.
  intros Hids. rewrite (handle_run op1), Hids. cbn [snd].
  rewrite !(handle_run op2). cbn [world].
  destruct (ids_match op2); split; reflexivity.
Qed.

End HandlerScheme.

(** * Further properties of the routing *)

Lemma span_segment_slash_free (seg : string) :
  slash_free seg = true -> span_segment seg = (seg, "").
Proof.
  induction seg as [| c seg IH]; cbn; [reflexivity |].
  intros H. apply andb_true_iff in H. destruct H as [Hc Hseg].
  apply negb_true_iff in Hc. rewrite Hc, (IH Hseg). reflexivity.
Qed.

Lemma span_segment_is_slash_free (path seg tail : string) :
  span_segment path = (seg, tail) -> slash_free seg = true.
Proof.
  revert seg tail. induction path as [| c path IH]; cbn; intros seg tail.
  - intros [= <- <-]. reflexivity.
  - destruct (Ascii.eqb c "/") eqn:Hc.
    + intros [= <- <-]. reflexivity.
    + destruct (span_segment path) as [seg' tail'].
      intros [= <- <-]. cbn. rewrite Hc. cbn. apply (IH _ _ eq_refl).
Qed.

Lemma match_path_after_literal (s : string) tokens (rest : string) :
  match_path (map Lit (list_ascii_of_string s) ++ tokens) (s ++ rest)
  = match_path tokens rest.
Proof.
  induction s as [| c s IH]; cbn; [reflexivity |].
  rewrite Ascii.eqb_refl. exact IH.
Qed.

Lemma match_path_literal_inv (s : string) tokens (path : string) ps :
  match_path (map Lit (list_ascii_of_string s) ++ tokens) path = Some ps ->
  exists rest, path = s ++ rest /\ match_path tokens rest = Some ps.
Proof.
  revert path. induction s as [| c s IH]; cbn; intros path H.
  - exists path. auto.
  - destruct path as [| c' path]; [discriminate |].
    destruct (Ascii.eqb_spec c c') as [<- |]; [| discriminate].
    destruct (IH _ H) as [rest [-> Hrest]]. exists rest. auto.
Qed.

Lemma match_path_literal_slash (s : string) tokens (seg : string) :
  slash_free seg = true ->
  slash_free s = false ->
  match_path (map Lit (list_ascii_of_string s) ++ tokens) seg = None.
Proof.
  revert seg. induction s as [| c s IH]; cbn; intros seg Hseg Hs.
  - discriminate.
  - destruct seg as [| c' seg]; [reflexivity |].
    cbn in Hseg. apply andb_true_iff in Hseg. destruct Hseg as [Hc' Hseg].
    destruct (Ascii.eqb_spec c c') as [<- |]; [| reflexivity].
    rewrite Hc' in Hs. cbn in Hs. apply (IH _ Hseg Hs).
Qed.

Lemma match_path_params (tokens : list token) (path : string) ps :
  match_path tokens path = Some ps ->
  Forall (fun kv => snd kv <> "" /\ slash_free (snd kv) = true) ps.
Proof.
  revert path ps. induction tokens as [| [c | name] tokens IH];
    cbn; intros path ps.
  - destruct (String.eqb path "" || String.eqb path (String "010" ""));
      [| discriminate].
    intros [= <-]. constructor.
  - destruct path as [| c' path]; [discriminate |].
    destruct (Ascii.eqb c c'); [| discriminate]. apply IH.
  - destruct (span_segment path) as [seg tail] eqn:Hspan.
    destruct (String.eqb_spec seg ""); [discriminate |].
    destruct (match_path tokens tail) as [ps' |] eqn:Htail; [| discriminate].
    intros [= <-]. constructor.
    + split; [assumption |]. apply (span_segment_is_slash_free _ _ _ Hspan).
    + apply (IH _ _ Htail).
Qed.

Lemma matches_full_inv (r : route) method path ps :
  matches r method path = FULL ps ->
  route_method r = method
  /\ match_path (compile_path (route_path r)) path = Some ps.
Proof.
  unfold matches.
  destruct (match_path (compile_path (route_path r)) path) as [ps' |];
    [| discriminate].
  destruct (http_method_eqb (route_method r) method) eqn:Hm; [| discriminate].
  intros [= <-]. split; [| reflexivity].
  destruct (route_method r), method; (discriminate || reflexivity).
Qed.

Lemma create_route_not_full_for_get path ps :
  matches (mkRoute POST (prefix ++ "") create_conversation_endpoint) GET path
  <> FULL ps.
Proof.
  intros H. apply matches_full_inv in H. destruct H as [H _]. discriminate H.
Qed.

Lemma session_route_on_single_segment (seg : string) :
  slash_free seg = true ->
  matches (mkRoute GET (prefix ++ "/session/{session_id}")
             get_session_conversations_endpoint)
          GET ("/conversations/" ++ seg) = NONE.
Proof.
  intros Hseg. unfold matches. cbn [route_path route_method].
  change (compile_path (prefix ++ "/session/{session_id}"))
    with (map Lit (list_ascii_of_string "/conversations/")
          ++ (map Lit (list_ascii_of_string "session/")
              ++ [Param "session_id"]))%list.
  rewrite match_path_after_literal.
  rewrite (match_path_literal_slash "session/" _ seg Hseg eq_refl).
  reflexivity.
Qed.

(** X9. Every GET of a path /conversations/<segment>, the segment being
    any non-empty text without "/", goes to get-by-id with that segment as
    conversation_id, whatever route is registered after it for a fixed
    segment. *)
Theorem by_id_route_takes_every_segment (seg : string) :
  seg <> "" ->
  slash_free seg = true ->
  dispatch GET ("/conversations/" ++ seg)
  = Handled get_conversation_by_id_endpoint [("conversation_id", seg)].
Proof.
  intros Hne Hseg. unfold dispatch, routes. cbn [dispatch_from route_endpoint].
  assert (Hby_id :
            matches (mkRoute GET (prefix ++ "/{conversation_id}")
                       get_conversation_by_id_endpoint)
                    GET ("/conversations/" ++ seg)
            = FULL [("conversation_id", seg)]).
  { unfold matches. cbn [route_path route_method].
    change (compile_path (prefix ++ "/{conversation_id}"))
      with (map Lit (list_ascii_of_string "/conversations/")
            ++ [Param "conversation_id"])%list.
    rewrite match_path_after_literal. cbn [match_path].
    rewrite (span_segment_slash_free _ Hseg).
    destruct (String.eqb_spec seg ""); [contradiction | reflexivity]. }
  rewrite (session_route_on_single_segment _ Hseg), Hby_id.
  destruct (matches (mkRoute POST (prefix ++ "") create_conversation_endpoint)
              GET ("/conversations/" ++ seg)) eqn:Hcreate;
    try reflexivity.
  exfalso. exact (create_route_not_full_for_get _ _ Hcreate).
Qed.

(** X10. Every GET of /conversations/session/<segment>, the segment
    non-empty and without "/", goes to list-for-session with that segment
    as session_id: the by-id route, one segment long, does not take it. *)
Theorem session_route_is_reached (seg : string) :
  seg <> "" ->
  slash_free seg = true ->
  dispatch GET ("/conversations/session/" ++ seg)
  = Handled get_session_conversations_endpoint [("session_id", seg)].
Proof.
  intros Hne Hseg. unfold dispatch, routes. cbn [dispatch_from route_endpoint].
  assert (Hsession :
            matches (mkRoute GET (prefix ++ "/session/{session_id}")
                       get_session_conversations_endpoint)
                    GET ("/conversations/session/" ++ seg)
            = FULL [("session_id", seg)]).
  { unfold matches. cbn [route_path route_method].
    change (compile_path (prefix ++ "/session/{session_id}"))
      with (map Lit (list_ascii_of_string "/conversations/session/")
            ++ [Param "session_id"])%list.
    rewrite match_path_after_literal. cbn [match_path].
    rewrite (span_segment_slash_free _ Hseg).
    destruct (String.eqb_spec seg ""); [contradiction | reflexivity]. }
  rewrite Hsession.
  destruct (matches (mkRoute POST (prefix ++ "") create_conversation_endpoint)
              GET ("/conversations/session/" ++ seg)) eqn:Hcreate;
    try reflexivity.
  exfalso. exact (create_route_not_full_for_get _ _ Hcreate).
Qed.

Lemma dispatch_from_full (rs : list route) partial method path e ps :
  dispatch_from rs partial method path = Handled e ps ->
  exists r, In r rs /\ route_endpoint r = e /\ matches r method path = FULL ps.
Proof.
  revert partial. induction rs as [| r rs IH]; cbn [dispatch_from]; intros partial.
  - destruct partial; discriminate.
  - destruct (matches r method path) as [| | ps'] eqn:Hr.
    + intros H. destruct (IH _ H) as [r' [Hin Hr']].
      exists r'. split; [right; exact Hin | exact Hr'].
    + intros H. destruct (IH _ H) as [r' [Hin Hr']].
      exists r'. split; [right; exact Hin | exact Hr'].
    + intros [= <- <-]. exists r. split; [left; reflexivity | auto].
Qed.

Lemma registered_routes_are_prefixed (r : route) :
  In r routes ->
  registered_method (route_endpoint r) = route_method r
  /\ exists tokens,
      compile_path (route_path r)
      = (map Lit (list_ascii_of_string prefix) ++ tokens)%list.
Proof.
  unfold routes. cbn [In].
  intros [<- | [<- | [<- | [<- | [<- | []]]]]];
    (split; [reflexivity |]); cbn [route_path];
    [ exists (compile_path "")
    | exists (compile_path "/session/{session_id}")
    | exists (compile_path "/{conversation_id}")
    | exists (compile_path "")
    | exists (compile_path "/get_prd") ];
    vm_compute; reflexivity.
Qed.

(** X11. A request is handed to an endpoint only under the method the
    endpoint is registered with and only for a path that starts with
    /conversations; and every path parameter it is handed is non-empty and
    has no "/" in it. *)
Theorem dispatch_respects_registration method path e ps :
  dispatch method path = Handled e ps ->
  method = registered_method e
  /\ (exists rest, path = prefix ++ rest)
  /\ Forall (fun kv => snd kv <> "" /\ slash_free (snd kv) = true) ps.
Proof.
  intros H. unfold dispatch in H.
  destruct (dispatch_from_full _ _ _ _ _ _ H) as [r [Hin [He Hfull]]].
  destruct (matches_full_inv _ _ _ _ Hfull) as [Hmethod Hmatch].
  destruct (registered_routes_are_prefixed _ Hin) as [Hreg [tokens Htokens]].
  subst e. split; [congruence |]. split.
  - rewrite Htokens in Hmatch.
    destruct (match_path_literal_inv _ _ _ _ Hmatch) as [rest [Hpath _]].
    exists rest. exact Hpath.
  - exact (match_path_params _ _ _ Hmatch).
Qed.

(** * Further properties of the conversation id *)

Lemma digit_value_hex_digit (d : N) :
  (d < 16)%N -> UUID.digit_value (UUID.hex_digit d) = Some d.
Proof.
  intros Hd. destruct d as [| p]; [reflexivity |].
  do 4 (try (destruct p as [p | p |]; try reflexivity)); exfalso; lia.
Qed.

Lemma of_hex_hex (k : nat) (n : N) (acc : string) (a : N) :
  UUID.of_hex (UUID.hex k n acc) a
  = UUID.of_hex acc (16 ^ N.of_nat k * a + n mod 16 ^ N.of_nat k)%N.
Proof.
  revert n acc a. induction k as [| k IH]; intros n acc a.
  - cbn [UUID.hex]. f_equal. change (16 ^ N.of_nat 0)%N with 1%N.
    rewrite N.mod_1_r. lia.
  - cbn [UUID.hex]. rewrite IH. cbn [UUID.of_hex].
    rewrite digit_value_hex_digit by (apply N.mod_lt; lia).
    f_equal. rewrite Nnat.Nat2N.inj_succ, N.pow_succ_r'.
    rewrite (N.Div0.mod_mul_r n 16 (16 ^ N.of_nat k)). lia.
Qed.

Lemma str_length (u : UUID.t) : String.length (UUID.str u) = 36%nat.
Proof. unfold UUID.str. cbn [UUID.hex]. reflexivity. Qed.

Lemma parse_hyphenated_str (u : UUID.t) :
  UUID.parse_hyphenated (UUID.str u)
  = option_map UUID.mk (UUID.of_hex (UUID.hex 32 (UUID.int u) "") 0%N).
Proof.
  unfold UUID.parse_hyphenated. rewrite str_length.
  unfold UUID.str, UUID.is_hyphen_at. cbn [UUID.hex].
  cbn [substring append String.get Nat.eqb andb Ascii.eqb Bool.eqb].
  reflexivity.
Qed.

Lemma parse_str (u : UUID.t) :
  (UUID.int u < 2 ^ 128)%N -> UUID.parse (UUID.str u) = Some u.
Proof.
  intros Hu. unfold UUID.parse. cbv zeta. rewrite str_length.
  cbn [Nat.eqb]. rewrite parse_hyphenated_str, of_hex_hex.
  cbn [UUID.of_hex option_map].
  change (16 ^ N.of_nat 32)%N with (2 ^ 128)%N.
  rewrite N.mul_0_r, N.add_0_l, (N.mod_small _ _ Hu).
  destruct u. reflexivity.
Qed.

(** X12. The text a UUID is written as, in the log lines and in the
    service call of get-by-id, is 36 characters long and reads back as the
    same UUID. *)
Theorem uuid_str_round_trip (u : UUID.t) :
  (UUID.int u < 2 ^ 128)%N ->
  String.length (UUID.str u) = 36%nat /\ UUID.parse (UUID.str u) = Some u.
Proof.
  intros Hu. split; [| exact (parse_str u Hu)].
  unfold UUID.str. cbn [UUID.hex]. reflexivity.
Qed.

(** X13. Get-by-id asks the service for the conversation of the path and
    for no other: two requests of one user whose service calls coincide
    carry the same conversation id. *)
Theorem get_by_id_call_identifies_conversation
        (id1 id2 : UUID.t) (current_user : UserInDB.t) :
  (UUID.int id1 < 2 ^ 128)%N ->
  (UUID.int id2 < 2 ^ 128)%N ->
  service_call_of (GetById id1 current_user)
  = service_call_of (GetById id2 current_user) ->
  id1 = id2.
Proof.
  intros H1 H2 Hcall. cbn [service_call_of] in Hcall.
  pose proof
    (f_equal (fun call =>
                match call with
                | get_conversations_service_call conversation_id _ =>
                    conversation_id
                | _ => ""
                end) Hcall) as Hstr.
  cbv beta iota in Hstr.
  assert (Hparse : UUID.parse (UUID.str id1) = UUID.parse (UUID.str id2))
    by (rewrite Hstr; reflexivity).
  rewrite (parse_str _ H1), (parse_str _ H2) in Hparse.
  congruence.
Qed.

(** ** The further properties at concrete requests *)

Lemma get_session_conversations_returns_verbatim_witness :
  get_session_conversations_service
    (ConversationService := scripted (Return (VList [])))
    42 (UserInDB.user_id user7) (world fresh) = (Return (VList []), 1%nat)
  /\ fst (get_session_conversations (service := scripted (Return (VList [])))
            42 user7 fresh) = Return (VList []).
Proof.
  split; [reflexivity |].
  rewrite (get_session_conversations_returns_verbatim
             (service := scripted (Return (VList [])))
             42 user7 fresh (VList []) 1%nat eq_refl).
  reflexivity.
Defined.

Lemma catch_all_wraps_classified_witness :
  let h := mkHTTPException 404 "Conversation not found" None in
  catches_all (Update update42 user7) = true
  /\ ids_match (Update update42 user7) = true
  /\ perform (service := scripted (Raise (EHTTP h)))
       (service_call_of (Update update42 user7)) (world fresh)
     = (Raise (EHTTP h), 1%nat)
  /\ fst (handle (service := scripted (Raise (EHTTP h)))
            (Update update42 user7) fresh)
     = Raise (EHTTP (mkHTTPException 500 "Internal server error" None)).
Proof.
  intros h. split; [reflexivity |]. split; [reflexivity |].
  split; [reflexivity |].
  apply (catch_all_wraps_classified (service := scripted (Raise (EHTTP h)))
           (Update update42 user7) fresh h 1%nat); reflexivity.
Defined.

Lemma raised_exception_is_classified_witness :
  has_try (GetById uuid_x user7) = true
  /\ fst (handle (service := scripted (Return VNone))
            (GetById uuid_x user7) fresh) = Raise not_found
  /\ (isinstance_HTTPException not_found = true
      \/ isinstance_Exception not_found = false).
Proof.
  split; [reflexivity |]. split; [reflexivity |].
  destruct (raised_exception_is_classified
              (service := scripted (Return VNone))
              (GetById uuid_x user7) fresh not_found eq_refl eq_refl)
    as [[Hhttp _] | [Hbase _]]; [left; exact Hhttp | right; exact Hbase].
Defined.

Lemma get_by_id_truthy_is_returned_witness :
  truthy (VList [VInt 1]) = true
  /\ get_conversations_service
       (ConversationService := scripted (Return (VList [VInt 1])))
       (UUID.str uuid_x) (UserInDB.user_id user7) (world fresh)
     = (Return (VList [VInt 1]), 1%nat)
  /\ fst (get_conversation_by_id
            (service := scripted (Return (VList [VInt 1])))
            uuid_x user7 fresh) = Return (VList [VInt 1]).
Proof.
  split; [reflexivity |]. split; [reflexivity |].
  rewrite (get_by_id_truthy_is_returned
             (service := scripted (Return (VList [VInt 1])))
             uuid_x user7 fresh (VList [VInt 1]) 1%nat eq_refl eq_refl).
  reflexivity.
Defined.

Lemma refused_request_changes_nothing_witness :
  ids_match (Create create42 user9) = false
  /\ fst (handle (service := scripted (Return (VStr "prd")))
            (LatestPrd 7)
            (snd (handle (service := scripted (Return (VStr "prd")))
                    (Create create42 user9) fresh)))
     = fst (handle (service := scripted (Return (VStr "prd")))
              (LatestPrd 7) fresh).
Proof.
  split; [reflexivity |].
  apply (refused_request_changes_nothing
           (service := scripted (Return (VStr "prd")))
           (Create create42 user9) (LatestPrd 7) fresh).
  reflexivity.
Defined.

Lemma by_id_route_takes_every_segment_witness :
  "latest" <> ""
  /\ slash_free "latest" = true
  /\ dispatch GET ("/conversations/" ++ "latest")
     = Handled get_conversation_by_id_endpoint [("conversation_id", "latest")].
Proof.
  split; [discriminate |]. split; [reflexivity |].
  apply (by_id_route_takes_every_segment "latest");
    [discriminate | reflexivity].
Defined.

Lemma session_route_is_reached_witness :
  "12" <> ""
  /\ slash_free "12" = true
  /\ dispatch GET ("/conversations/session/" ++ "12")
     = Handled get_session_conversations_endpoint [("session_id", "12")].
Proof.
  split; [discriminate |]. split; [reflexivity |].
  apply (session_route_is_reached "12"); [discriminate | reflexivity].
Defined.

Lemma dispatch_respects_registration_witness :
  dispatch PUT "/conversations" = Handled update_conversation_endpoint []
  /\ PUT = registered_method update_conversation_endpoint.
Proof.
  split; [reflexivity |].
  apply (dispatch_respects_registration PUT "/conversations"
           update_conversation_endpoint []).
  reflexivity.
Defined.

Lemma uuid_str_round_trip_witness :
  (UUID.int uuid_x < 2 ^ 128)%N
  /\ UUID.parse (UUID.str uuid_x) = Some uuid_x.
Proof.
  split; [reflexivity |].
  apply (uuid_str_round_trip uuid_x). reflexivity.
Defined.

Lemma get_by_id_call_identifies_conversation_witness :
  (UUID.int uuid_x < 2 ^ 128)%N
  /\ service_call_of (GetById uuid_x user7)
     = service_call_of (GetById uuid_x user7)
  /\ uuid_x = uuid_x.
Proof.
  split; [reflexivity |]. split; [reflexivity |].
  apply (get_by_id_call_identifies_conversation uuid_x uuid_x user7);
    reflexivity.
Defined.
